(** * A shallow embedding of the validate / transform pipeline

    The development follows the three source modules:
    - [src/utils.py]      : [load_config], [get_config_value],
                            [ensure_directory_exists], [save_json];
    - [src/main.py]       : [validate_input], [process_data],
                            [process_file], [process_api_response];
    - [src/automation.py] : [file_automation], [api_automation].

    Python values are embedded as the inductive type [value]; Python
    dictionaries are finite maps with string keys; Python floats are IEEE 754
    binary64 numbers, taken from the executable specification [SpecFloat] of
    the standard library.  An exception is an explicit [Raise] outcome, and
    every access to the file system or to the network is recorded in a trace
    of events, so that "nothing was read" is a statement about that trace.

    What lies outside the repository is a parameter, gathered in the record
    [world]: the JSON decoder of the Python standard library, the state of
    the file system and the HTTP client.  Logging is a sink and is left out. *)

From Stdlib Require Import ZArith String Ascii List Lia.
From Stdlib Require Floats.SpecFloat.
From stdpp Require Import base option gmap strings pretty.

Set Warnings "-register-all".

Open Scope string_scope.
Open Scope Z_scope.

(* ================================================================== *)
(** * Python values *)
(* ================================================================== *)

Module Py.

(** Binary64: 53 bits of precision, infinities at exponent 1024. *)
Abbreviation float := SpecFloat.spec_float.

Definition float_zero : float := SpecFloat.S754_zero false.
Definition float_nan : float := SpecFloat.S754_nan.
Definition float_mul (x y : float) : float := SpecFloat.SFmul 53 1024 x y.
Definition float_ltb (x y : float) : bool := SpecFloat.SFltb x y.
Definition float_leb (x y : float) : bool := SpecFloat.SFleb x y.

(** The floats that exist in binary64: a finite one has a canonical
    mantissa and an exponent in range. *)
Definition float_valid (x : float) : bool := SpecFloat.valid_binary 53 1024 x.

(** The values that flow through the program: what [json.load] produces
    and what the callers write as literals. *)
Inductive value : Type :=
| VNone
| VBool (b : bool)
| VInt (z : Z)
| VFloat (f : float)
| VStr (s : string)
| VList (l : list value)
| VDict (d : gmap string value).

(** A Python dict with string keys. *)
Abbreviation dict := (gmap string value).

Definition type_name (v : value) : string :=
  match v with
  | VNone => "NoneType"
  | VBool _ => "bool"
  | VInt _ => "int"
  | VFloat _ => "float"
  | VStr _ => "str"
  | VList _ => "list"
  | VDict _ => "dict"
  end.

(** ** Exceptions *)

Inductive exn_class : Set :=
| Exception
| ValueError
| TypeError
| AttributeError
| KeyError
| OverflowError
| JSONDecodeError
| UnicodeDecodeError
| OSError
| FileNotFoundError
| IsADirectoryError
| PermissionError
| RequestException.

#[global] Instance exn_class_eq_dec : EqDecision exn_class.
Proof. solve_decision. Defined.

(** The direct base class, as in the Python class hierarchy
    ([json.JSONDecodeError] and [UnicodeDecodeError] derive from
    [ValueError]; the file errors and [requests]' base exception from
    [OSError]). *)
Definition base_class (c : exn_class) : option exn_class :=
  match c with
  | Exception => None
  | JSONDecodeError | UnicodeDecodeError => Some ValueError
  | FileNotFoundError | IsADirectoryError | PermissionError
  | RequestException => Some OSError
  | _ => Some Exception
  end.

(** [issubclass c c'], by walking up at most three levels. *)
Definition issubclass (c c' : exn_class) : bool :=
  bool_decide (c = c')
  || match base_class c with
     | None => false
     | Some b =>
         bool_decide (b = c')
         || match base_class b with
            | None => false
            | Some b' => bool_decide (b' = c')
            end
     end.

Record exn : Type := Exn { exn_cls : exn_class; exn_msg : string }.

(** [str(e)] *)
Definition str_exn (e : exn) : string := exn_msg e.

(** [except c:] catches [e] *)
Definition caught_by (c : exn_class) (e : exn) : bool :=
  issubclass (exn_cls e) c.

Inductive result (A : Type) : Type :=
| Ok (a : A)
| Raise (e : exn).
Arguments Ok {A} a.
Arguments Raise {A} e.

Definition result_bind {A B} (r : result A) (k : A -> result B) : result B :=
  match r with
  | Ok a => k a
  | Raise e => Raise e
  end.

(** ** Numbers *)

(** The numeric view of a value: [bool] is a subclass of [int]. *)
Inductive number : Type :=
| NInt (z : Z)
| NFloat (f : float).

Definition as_number (v : value) : option number :=
  match v with
  | VBool b => Some (NInt (Z.b2z b))
  | VInt z => Some (NInt z)
  | VFloat f => Some (NFloat f)
  | _ => None
  end.

(** [isinstance(v, (int, float))] *)
Definition isinstance_int_float (v : value) : bool :=
  match v with
  | VBool _ | VInt _ | VFloat _ => true
  | _ => false
  end.

(** [isinstance(v, str)] *)
Definition isinstance_str (v : value) : bool :=
  match v with VStr _ => true | _ => false end.

(** Conversion of an [int] to a [float]: round to nearest, ties to even;
    an integer whose rounding leaves the finite range raises. *)
Definition float_of_int (z : Z) : result float :=
  match SpecFloat.binary_normalize 53 1024 z 0 false with
  | SpecFloat.S754_infinity _ =>
      Raise (Exn OverflowError "int too large to convert to float")
  | f => Ok f
  end.

(** [x < 0] on numbers; an int and a float are compared exactly, and every
    comparison with NaN is false. *)
Definition number_lt_zero (x : number) : bool :=
  match x with
  | NInt z => z <? 0
  | NFloat f => float_ltb f float_zero
  end.

(** [x >= 0] on numbers. *)
Definition number_ge_zero (x : number) : bool :=
  match x with
  | NInt z => 0 <=? z
  | NFloat f => float_leb float_zero f
  end.

(** [v < 0] on values *)
Definition py_lt_zero (v : value) : result bool :=
  match as_number v with
  | Some x => Ok (number_lt_zero x)
  | None =>
      Raise (Exn TypeError
               ("'<' not supported between instances of '"
                  +:+ type_name v +:+ "' and 'int'"))
  end.

Definition number_mul (x y : number) : result value :=
  match x, y with
  | NInt a, NInt b => Ok (VInt (a * b))
  | NFloat f, NFloat g => Ok (VFloat (float_mul f g))
  | NInt a, NFloat g =>
      result_bind (float_of_int a) (fun f => Ok (VFloat (float_mul f g)))
  | NFloat f, NInt b =>
      result_bind (float_of_int b) (fun g => Ok (VFloat (float_mul f g)))
  end.

(** ** Sequences *)

Definition is_sequence (v : value) : bool :=
  match v with VStr _ | VList _ => true | _ => false end.

Fixpoint str_repeat (s : string) (n : nat) : string :=
  match n with
  | O => ""
  | S n' => s +:+ str_repeat s n'
  end.

Fixpoint list_repeat {A} (l : list A) (n : nat) : list A :=
  match n with
  | O => []
  | S n' => (l ++ list_repeat l n')%list
  end.

(** [seq * count]: the count must be an int that fits a machine index
    (64 bits); a negative count gives the empty sequence. *)
Definition sequence_repeat (seq count : value) : result value :=
  match count with
  | VBool _ | VInt _ =>
      let n := match count with
               | VBool b => Z.b2z b
               | VInt z => z
               | _ => 0
               end in
      if (n <? - 2 ^ 63) || (2 ^ 63 - 1 <? n) then
        Raise (Exn OverflowError
                 "cannot fit 'int' into an index-sized integer")
      else
        match seq with
        | VStr s => Ok (VStr (str_repeat s (Z.to_nat n)))
        | VList l => Ok (VList (list_repeat l (Z.to_nat n)))
        | _ => Raise (Exn TypeError "not a sequence")
        end
  | _ =>
      Raise (Exn TypeError
               ("can't multiply sequence by non-int of type '"
                  +:+ type_name count +:+ "'"))
  end.

(** [a * b] *)
Definition py_mul (a b : value) : result value :=
  match as_number a, as_number b with
  | Some x, Some y => number_mul x y
  | _, _ =>
      if is_sequence a then sequence_repeat a b
      else if is_sequence b then sequence_repeat b a
      else
        Raise (Exn TypeError
                 ("unsupported operand type(s) for *: '"
                    +:+ type_name a +:+ "' and '" +:+ type_name b +:+ "'"))
  end.

(** ** Truth value, dictionaries *)

(** [bool(v)]; NaN is true, both zeros are false. *)
Definition py_truthy (v : value) : bool :=
  match v with
  | VNone => false
  | VBool b => b
  | VInt z => negb (z =? 0)
  | VFloat (SpecFloat.S754_zero _) => false
  | VFloat _ => true
  | VStr s => negb (bool_decide (s = ""))
  | VList l => match l with [] => false | _ => true end
  | VDict d => negb (bool_decide (d = ∅))
  end.

(** [key in d] *)
Definition dict_contains (d : dict) (key : string) : bool :=
  bool_decide (is_Some (d !! key)).

(** [d[key]] *)
Definition dict_getitem (d : dict) (key : string) : result value :=
  match d !! key with
  | Some v => Ok v
  | None => Raise (Exn KeyError key)
  end.

(** [v[key]] for a string key *)
Definition py_getitem (v : value) (key : string) : result value :=
  match v with
  | VDict d => dict_getitem d key
  | VStr _ => Raise (Exn TypeError "string indices must be integers")
  | VList _ => Raise (Exn TypeError "list indices must be integers or slices, not str")
  | _ => Raise (Exn TypeError ("'" +:+ type_name v +:+ "' object is not subscriptable"))
  end.

(** [v.get(key, default)]: only a dict has the method. *)
Definition py_get (v : value) (key : string) (default : value) : result value :=
  match v with
  | VDict d =>
      Ok (match d !! key with Some x => x | None => default end)
  | _ =>
      Raise (Exn AttributeError
               ("'" +:+ type_name v +:+ "' object has no attribute 'get'"))
  end.

End Py.

Import Py.

(* ================================================================== *)
(** * Effects: a trace of accesses and an outcome *)
(* ================================================================== *)

(** The keyword arguments handed to [requests.request]; the key [json] is
    present only when the source adds it. *)
Record request_kwargs : Type := RequestKwargs {
  rk_url : string;
  rk_method : string;
  rk_headers : gmap string string;
  rk_json : option dict
}.

(** What the program needs of an HTTP response.  [resp_json] is the outcome
    of [response.json()]: the decoded body, or [None] when the call raises
    [json.JSONDecodeError]. *)
Record response : Type := Response {
  status_code : Z;
  resp_text : string;
  resp_json : option value
}.

(** What [os.path.exists] and [open]/[read] see at a path: nothing, an entry
    that exists but whose opening or reading raises [e] (a directory, a
    file without read permission, bytes that do not decode), or a text
    file. *)
Inductive file_state : Type :=
| NoFile
| Unreadable (e : exn)
| Readable (text : string).

(** Everything outside the repository.  [json_loads] is [json.loads]:
    [inr v] is the decoded value, [inl msg] is a [json.JSONDecodeError]
    with message [msg]. *)
Record world : Type := World {
  json_loads : string -> string + value;
  fs : string -> file_state;
  requests_request : request_kwargs -> result response
}.

Inductive event : Type :=
| EvExists (path : string)
| EvRead (path : string)
| EvRequest (kw : request_kwargs).

(** A computation yields the accesses it made, in order, and its outcome. *)
Definition M (A : Type) : Type := (list event * result A)%type.

Definition ret {A} (a : A) : M A := ([], Ok a).

Definition raise {A} (e : exn) : M A := ([], Raise e).

Definition lift {A} (r : result A) : M A := ([], r).

Definition bind {A B} (m : M A) (k : A -> M B) : M B :=
  match m with
  | (t, Ok a) => let (t', r) := k a in ((t ++ t')%list, r)
  | (t, Raise e) => (t, Raise e)
  end.

Notation "x <~ c1 ;; c2" := (bind c1 (fun x => c2))
  (at level 62, c1 at next level, right associativity).

(** [try: body  except cls as e: handler e] *)
Definition try_except {A} (body : M A) (cls : exn_class) (handler : exn -> M A)
  : M A :=
  match body with
  | (t, Raise e) =>
      if caught_by cls e then let (t', r) := handler e in ((t ++ t')%list, r)
      else (t, Raise e)
  | done => done
  end.

Definition outcome {A} (m : M A) : result A := snd m.
Definition trace {A} (m : M A) : list event := fst m.

(** [os.path.exists(path)] *)
Definition os_path_exists (w : world) (path : string) : M bool :=
  ([EvExists path],
   Ok (match fs w path with NoFile => false | _ => true end)).

(** [with open(path, 'r') as f: f.read()] *)
Definition read_text (w : world) (path : string) : M string :=
  ([EvRead path],
   match fs w path with
   | Readable text => Ok text
   | Unreadable e => Raise e
   | NoFile =>
       Raise (Exn FileNotFoundError
                ("[Errno 2] No such file or directory: '" +:+ path +:+ "'"))
   end).

(** [json.loads(text)] *)
Definition json_decode (w : world) (text : string) : M value :=
  match json_loads w text with
  | inr v => ret v
  | inl msg => raise (Exn JSONDecodeError msg)
  end.

(* ================================================================== *)
(** * src/utils.py *)
(* ================================================================== *)

Module Utils.

Definition load_config (w : world) (config_path : string) : M value :=
  found <~ os_path_exists w config_path ;;
  if negb found then ret (VDict ∅)
  else
    try_except
      (text <~ read_text w config_path ;;
       config <~ json_decode w text ;;
       ret config)
      JSONDecodeError
      (fun e => raise e).

Definition get_config_value (w : world) (section key : string)
    (default : value) (config_path : string) : M value :=
  try_except
    (config <~ Utils.load_config w config_path ;;
     sect <~ lift (py_get config section (VDict ∅)) ;;
     lift (py_get sect key default))
    Exception
    (fun _ => ret default).

End Utils.

(* ================================================================== *)
(** * src/automation.py *)
(* ================================================================== *)

Module Automation.

(** In both adapters the dict [result] is updated in place.  Every step
    that can raise into the outer handler (the existence test, the read,
    the request) comes before the first update, so the handler sees the
    dict as it was created. *)

Definition file_automation (w : world) (file_path : string) : M dict :=
  let result : dict :=
    <["data" := VNone]>
      (<["message" := VStr ""]> (<["success" := VBool false]> ∅)) in
  try_except
    (found <~ os_path_exists w file_path ;;
     if negb found then
       ret (<["message" := VStr ("File not found: " +:+ file_path)]> result)
     else
       file_content <~ read_text w file_path ;;
       try_except
         (data <~ json_decode w file_content ;;
          ret (<["success" := VBool true]>
                 (<["message" := VStr "File successfully processed as JSON"]>
                    (<["data" := data]> result))))
         JSONDecodeError
         (fun _ =>
            ret (<["data" := VStr file_content]>
                   (<["message" := VStr "File content is not valid JSON"]>
                      result))))
    Exception
    (fun e =>
       ret (<["message" := VStr ("Error processing file: " +:+ str_exn e)]>
              result)).

(** [str.upper] on the ASCII letters, which is all an HTTP method has. *)
Definition ascii_upper (c : ascii) : ascii :=
  let n := nat_of_ascii c in
  if ((97 <=? n) && (n <=? 122))%nat then ascii_of_nat (n - 32) else c.

Fixpoint str_upper (s : string) : string :=
  match s with
  | EmptyString => EmptyString
  | String c s' => String (ascii_upper c) (str_upper s')
  end.

(** [response.json()] *)
Definition response_json (r : response) : M value :=
  match resp_json r with
  | Some v => ret v
  | None => raise (Exn JSONDecodeError "Expecting value")
  end.

(** The call to [requests.request] with the keyword arguments [kw]. *)
Definition request (w : world) (kw : request_kwargs) : M response :=
  ([EvRequest kw], requests_request w kw).

Definition build_request (url method : string)
    (headers : option (gmap string string)) (data : option dict)
  : request_kwargs :=
  let request_kwargs :=
    {| rk_url := url;
       rk_method := str_upper method;
       rk_headers := match headers with
                     | Some h => if bool_decide (h = ∅) then ∅ else h
                     | None => ∅
                     end;
       rk_json := None |} in
  if bool_decide (str_upper method ∈ ["POST"; "PUT"; "PATCH"])
     && match data with
        | Some d => py_truthy (VDict d)
        | None => false
        end
  then {| rk_url := rk_url request_kwargs;
          rk_method := rk_method request_kwargs;
          rk_headers := rk_headers request_kwargs;
          rk_json := data |}
  else request_kwargs.

Definition api_automation (w : world) (url method : string)
    (headers : option (gmap string string)) (data : option dict) : M dict :=
  let result : dict :=
    <["status_code" := VNone]>
      (<["data" := VNone]>
         (<["message" := VStr ""]> (<["success" := VBool false]> ∅))) in
  try_except
    (resp <~ request w (build_request url method headers data) ;;
     let result := <["status_code" := VInt (status_code resp)]> result in
     if (200 <=? status_code resp) && (status_code resp <? 300) then
       try_except
         (body <~ response_json resp ;;
          ret (<["success" := VBool true]>
                 (<["message" := VStr "API request successful"]>
                    (<["data" := body]> result))))
         JSONDecodeError
         (fun _ =>
            ret (<["success" := VBool true]>
                   (<["message" :=
                        VStr "API request successful but response is not JSON"]>
                      (<["data" := VStr (resp_text resp)]> result))))
     else
       let result :=
         <["message" :=
             VStr ("API request failed with status code: "
                     +:+ pretty (status_code resp))]> result in
       try_except
         (body <~ response_json resp ;;
          ret (<["data" := body]> result))
         JSONDecodeError
         (fun _ => ret (<["data" := VStr (resp_text resp)]> result)))
    Exception
    (fun e =>
       ret (<["message" := VStr ("Error making API request: " +:+ str_exn e)]>
              result)).

End Automation.

(* ================================================================== *)
(** * src/main.py *)
(* ================================================================== *)

Module Main.

Definition required_fields : list string := ["name"; "value"].

(** The loop over [required_fields], with its early return. *)
Fixpoint has_fields (d : dict) (fields : list string) : bool :=
  match fields with
  | [] => true
  | field :: rest =>
      if negb (dict_contains d field) then false else has_fields d rest
  end.

(** The test [isinstance(data, dict)] is the match on [VDict]. *)
Definition validate_input (data : value) : M bool :=
  match data with
  | VDict d =>
      if negb (has_fields d required_fields) then ret false
      else
        name <~ lift (dict_getitem d "name") ;;
        if negb (isinstance_str name) || negb (py_truthy name) then ret false
        else
          v <~ lift (dict_getitem d "value") ;;
          if negb (isinstance_int_float v) then ret false
          else
            negative <~ lift (py_lt_zero v) ;;
            if negative then ret false else ret true
  | _ => ret false
  end.

Definition process_data (w : world) (data : value) (config_path : string)
  : M dict :=
  valid <~ validate_input data ;;
  if negb valid then raise (Exn ValueError "Invalid input data")
  else
    multiplier <~ Utils.get_config_value w "processing" "default_multiplier"
                    (VInt 2) config_path ;;
    v <~ lift (py_getitem data "value") ;;
    processed_value <~ lift (py_mul v multiplier) ;;
    original_value <~ lift (py_getitem data "value") ;;
    name <~ lift (py_getitem data "name") ;;
    ret (<["name" := name]>
           (<["processed_value" := processed_value]>
              (<["original_value" := original_value]>
                 (<["status" := VStr "success"]> ∅)))).

Definition process_api_response (w : world) (response_data : value)
    (config_path : string) : M dict :=
  title <~ lift (py_get response_data "title" (VStr "Unknown")) ;;
  id <~ lift (py_get response_data "id" (VInt 0)) ;;
  let extracted_data := VDict (<["value" := id]> (<["name" := title]> ∅)) in
  try_except
    (result <~ process_data w extracted_data config_path ;;
     ret (<["status" := VStr "processed"]> result))
    ValueError
    (fun e =>
       ret (<["message" := VStr (str_exn e)]>
              (<["status" := VStr "error"]> ∅))).

End Main.

Import Utils Automation Main.

(* ================================================================== *)
(** * The vocabulary of the specification *)
(* ================================================================== *)

(** [r.k] for a record [r]: the field of a mapping, nothing otherwise. *)
Definition field (r : value) (k : string) : option value :=
  match r with
  | VDict d => d !! k
  | _ => None
  end.

(** The Validator's rules as the specification words them: a mapping with
    [name] a non-empty text and [value] a number that is [>= 0]. *)
Definition spec_valid (record : value) : Prop :=
  exists (d : dict) (n : string) (v : value) (x : number),
    record = VDict d
    /\ d !! "name" = Some (VStr n) /\ n <> ""
    /\ d !! "value" = Some v /\ as_number v = Some x
    /\ number_ge_zero x = true.

(** The same rules with the range test as the code applies it: the number
    is [>= 0], or it is the float NaN (which is not [< 0] either). *)
Definition accepted_record (record : value) : Prop :=
  exists (d : dict) (n : string) (v : value) (x : number),
    record = VDict d
    /\ d !! "name" = Some (VStr n) /\ n <> ""
    /\ d !! "value" = Some v /\ as_number v = Some x
    /\ (number_ge_zero x = true \/ x = NFloat float_nan).

(** The checks of [validate_input] on a dict, taken together as one
    boolean. *)
Definition checks (d : dict) : bool :=
  match d !! "name", d !! "value" with
  | Some (VStr n), Some v =>
      negb (bool_decide (n = ""))
      && match as_number v with
         | Some x => negb (number_lt_zero x)
         | None => false
         end
  | _, _ => false
  end.

(** [config[section][key]] when both levels exist. *)
Definition nested_entry (config : value) (section key : string) : option value :=
  match config with
  | VDict c =>
      match c !! section with
      | Some (VDict s) => s !! key
      | _ => None
      end
  | _ => None
  end.

(** The configured value: the entry of the loaded configuration if there is
    one, the default if the entry is absent or the configuration fails to
    load. *)
Definition configured_value (w : world) (config_path section key : string)
    (default : value) : value :=
  match outcome (load_config w config_path) with
  | Ok config =>
      match nested_entry config section key with
      | Some v => v
      | None => default
      end
  | Raise _ => default
  end.

(** The multiplier of the Transformer. *)
Definition multiplier_of (w : world) (config_path : string) : value :=
  configured_value w config_path "processing" "default_multiplier" (VInt 2).

(** The ProcessedResult of a successful transform. *)
Definition processed_result (status : string) (name original processed : value)
  : dict :=
  {[ "status" := VStr status;
     "original_value" := original;
     "processed_value" := processed;
     "name" := name ]}.

(** The OperationResult envelope of the file adapter, and of the API
    adapter (which adds the status code). *)
Definition operation_result (success : bool) (message : string) (data : value)
  : dict :=
  {[ "success" := VBool success; "message" := VStr message; "data" := data ]}.

Definition api_result (success : bool) (message : string) (data code : value)
  : dict :=
  {[ "success" := VBool success; "message" := VStr message; "data" := data;
     "status_code" := code ]}.

(** The body an API result carries: the decoded JSON, or the raw text. *)
Definition body_of (resp : response) : value :=
  match resp_json resp with
  | Some v => v
  | None => VStr (resp_text resp)
  end.

(** The status codes of a successful request. *)
Definition in_2xx (code : Z) : bool := (200 <=? code) && (code <? 300).

(** The record the API path builds from a response body. *)
Definition remap (body : dict) : value :=
  VDict {[ "name" := default (VStr "Unknown") (body !! "title");
           "value" := default (VInt 0) (body !! "id") ]}.

(** A call to one of the two source adapters. *)
Inductive adapter_call : Type :=
| FileCall (file_path : string)
| ApiCall (url method : string) (headers : option (gmap string string))
    (data : option dict).

Definition run_adapter (w : world) (c : adapter_call) : M dict :=
  match c with
  | FileCall file_path => file_automation w file_path
  | ApiCall url method headers data => api_automation w url method headers data
  end.

(* ================================================================== *)
(** * A concrete world for the examples *)
(* ================================================================== *)

Module Demo.

Definition quoted (s : string) : string :=
  String "034"%char (s +:+ String "034"%char "").

(** 0.5, 2.5 and 7.5 as binary64 numbers *)
Definition half : float := SpecFloat.S754_finite false 4503599627370496 (-53).
Definition two_and_half : float :=
  SpecFloat.S754_finite false 5629499534213120 (-51).
Definition seven_and_half : float :=
  SpecFloat.S754_finite false 8444249301319680 (-50).

(** The text [{"processing": {"default_multiplier": 0.5}}] *)
Definition config_text : string :=
  "{" +:+ quoted "processing" +:+ ": {" +:+ quoted "default_multiplier"
    +:+ ": 0.5}}".

(** The text [{"name": "Temp File Test", "value": 100}] *)
Definition record_text : string :=
  "{" +:+ quoted "name" +:+ ": " +:+ quoted "Temp File Test" +:+ ", "
    +:+ quoted "value" +:+ ": 100}".

(** The text of the response body
    [{"userId": 1, "id": 1, "title": "delectus aut autem", "completed": false}] *)
Definition todo_text : string :=
  "{" +:+ quoted "userId" +:+ ": 1, " +:+ quoted "id" +:+ ": 1, "
    +:+ quoted "title" +:+ ": " +:+ quoted "delectus aut autem" +:+ ", "
    +:+ quoted "completed" +:+ ": false}".

(** [json.loads] on the texts that the files of this world hold: two JSON
    documents, and a text that is not JSON. *)
Definition loads (text : string) : string + value :=
  if bool_decide (text = config_text) then
    inr (VDict {[ "processing" :=
                    VDict {[ "default_multiplier" := VFloat half ]} ]})
  else if bool_decide (text = record_text) then
    inr (VDict {[ "name" := VStr "Temp File Test"; "value" := VInt 100 ]})
  else inl "Expecting value: line 1 column 1 (char 0)".

Definition files (path : string) : file_state :=
  if bool_decide (path = "config.json") then Readable config_text
  else if bool_decide (path = "data.json") then Readable record_text
  else if bool_decide (path = "notes.txt") then Readable "not json"
  else if bool_decide (path = ".") then
    Unreadable (Exn IsADirectoryError "[Errno 21] Is a directory: '.'")
  else NoFile.

Definition todo : dict :=
  {[ "userId" := VInt 1; "id" := VInt 1;
     "title" := VStr "delectus aut autem"; "completed" := VBool false ]}.

Definition http (kw : request_kwargs) : result response :=
  if bool_decide (rk_url kw = "https://example.test/todos/1") then
    Ok {| status_code := 200; resp_text := todo_text;
          resp_json := Some (VDict todo) |}
  else if bool_decide (rk_url kw = "https://example.test/missing") then
    Ok {| status_code := 404; resp_text := "Not Found"; resp_json := None |}
  else Raise (Exn RequestException "connection refused").

Definition w : world :=
  {| json_loads := loads; fs := files; requests_request := http |}.

(** A world without any file. *)
Definition bare : world :=
  {| json_loads := loads; fs := fun _ => NoFile; requests_request := http |}.


Definition invalid_sample : value :=
  VDict {[ "name" := VStr ""; "value" := VInt (-1) ]}.

Definition nan_record : value :=
  VDict {[ "name" := VStr "x"; "value" := VFloat float_nan ]}.


End Demo.

(* ================================================================== *)
(** * src/main.py: processing a file *)
(* ================================================================== *)

Module Driver.

(** A [try] with several [except] clauses: the first clause whose class
    matches the error handles it, and what a handler raises is not offered
    to the clauses after it. *)
Fixpoint first_clause {A} (clauses : list (exn_class * (exn -> M A)))
    (e : exn) : option (exn -> M A) :=
  match clauses with
  | [] => None
  | (cls, handler) :: rest =>
      if caught_by cls e then Some handler else first_clause rest e
  end.

Definition try_excepts {A} (body : M A)
    (clauses : list (exn_class * (exn -> M A))) : M A :=
  match body with
  | (t, Raise e) =>
      match first_clause clauses e with
      | Some handler => let (t', r) := handler e in ((t ++ t')%list, r)
      | None => (t, Raise e)
      end
  | done => done
  end.

Definition process_file (w : world) (file_path config_path : string)
  : M dict :=
  data <~ try_excepts
            (text <~ read_text w file_path ;;
             json_decode w text)
            [ (FileNotFoundError, fun e => raise e);
              (JSONDecodeError, fun e => raise e) ] ;;
  process_data w data config_path.

End Driver.

(* ================================================================== *)
(** * src/utils.py: directories and JSON files *)
(* ================================================================== *)

Module UtilsIO.

(** These two functions change the file system, so the state of the file
    system is threaded through them.  The operating system is a parameter:
    [os_view] is what a state shows at a path, [os_makedirs] and [os_write]
    are [os.makedirs(path)] and the writing of a text to
    [open(path, 'w', encoding='utf-8')]; both give the state they leave
    behind, also when they fail.  [json_dumps] is the text that
    [json.dump(data, f, indent=2)] writes; the values of this development
    all serialize. *)
Record os_api (S : Type) : Type := OsApi {
  os_view : S -> string -> file_state;
  os_makedirs : S -> string -> S * result unit;
  os_write : S -> string -> string -> S * result unit;
  os_dirname : string -> string;
  json_dumps : value -> string
}.
Arguments os_view {S} _ _ _.
Arguments os_makedirs {S} _ _ _.
Arguments os_write {S} _ _ _ _.
Arguments os_dirname {S} _ _.
Arguments json_dumps {S} _ _.

Inductive os_event : Type :=
| OsExists (path : string)
| OsMakedirs (path : string)
| OsWrite (path text : string).

(** A computation on the file system: from a state to the state it leaves,
    the calls it made and its outcome. *)
Definition IO (S A : Type) : Type := S -> S * list os_event * result A.

Definition io_ret {S A} (a : A) : IO S A := fun s => (s, [], Ok a).

Definition io_bind {S A B} (m : IO S A) (k : A -> IO S B) : IO S B :=
  fun s =>
    match m s with
    | (s1, t, Ok a) =>
        let '(s2, t', r) := k a s1 in (s2, (t ++ t')%list, r)
    | (s1, t, Raise e) => (s1, t, Raise e)
    end.

Notation "x <~~ c1 ;; c2" := (io_bind c1 (fun x => c2))
  (at level 62, c1 at next level, right associativity).

Definition io_try {S A} (body : IO S A) (cls : exn_class)
    (handler : exn -> IO S A) : IO S A :=
  fun s =>
    match body s with
    | (s1, t, Raise e) =>
        if caught_by cls e then
          let '(s2, t', r) := handler e s1 in (s2, (t ++ t')%list, r)
        else (s1, t, Raise e)
    | done => done
    end.

(** [os.path.exists(path)] *)
Definition io_exists {S} (api : os_api S) (path : string) : IO S bool :=
  fun s =>
    (s, [OsExists path],
     Ok (match os_view api s path with NoFile => false | _ => true end)).

(** [os.makedirs(path)] *)
Definition io_makedirs {S} (api : os_api S) (path : string) : IO S unit :=
  fun s => let (s', r) := os_makedirs api s path in (s', [OsMakedirs path], r).

(** [with open(path, 'w', encoding='utf-8') as f: json.dump(data, f, indent=2)] *)
Definition io_dump {S} (api : os_api S) (data : value) (path : string)
  : IO S unit :=
  fun s =>
    let (s', r) := os_write api s path (json_dumps api data) in
    (s', [OsWrite path (json_dumps api data)], r).

Definition ensure_directory_exists {S} (api : os_api S)
    (directory_path : string) : IO S bool :=
  io_try
    (found <~~ io_exists api directory_path ;;
     _ <~~ (if negb found then io_makedirs api directory_path
            else io_ret tt) ;;
     io_ret true)
    Exception
    (fun _ => io_ret false).

Definition save_json {S} (api : os_api S) (data : value) (file_path : string)
  : IO S bool :=
  io_try
    (let directory := os_dirname api file_path in
     _ <~~ (if py_truthy (VStr directory) then
              found <~~ io_exists api directory ;;
              if negb found then io_makedirs api directory else io_ret tt
            else io_ret tt) ;;
     _ <~~ io_dump api data file_path ;;
     io_ret true)
    Exception
    (fun _ => io_ret false).

(** The world a state of the file system shows to the readers. *)
Definition world_at {S} (api : os_api S) (w : world) (s : S) : world :=
  {| json_loads := json_loads w;
     fs := os_view api s;
     requests_request := requests_request w |}.

End UtilsIO.

(** Whether an outcome is a value. *)
Definition succeeded {A} (r : result A) : bool :=
  match r with Ok _ => true | Raise _ => false end.

(** The error record of the API path. *)
Definition api_error_result (message : string) : dict :=
  {[ "status" := VStr "error"; "message" := VStr message ]}.

(* ================================================================== *)
(** * A concrete file system for the examples *)
(* ================================================================== *)

Module DemoIO.

Import UtilsIO.

Definition newline : string := String "010"%char "".

Fixpoint drop_while {A} (p : A -> bool) (l : list A) : list A :=
  match l with
  | [] => []
  | x :: rest => if p x then drop_while p rest else l
  end.

(** [os.path.dirname] of [posixpath]: the part before the last slash,
    without its trailing slashes unless it consists of slashes only. *)
Definition posix_dirname (path : string) : string :=
  let is_slash (c : ascii) := bool_decide (c = "/"%char) in
  let rhead :=
    drop_while (fun c => negb (is_slash c))
      (rev (list_ascii_of_string path)) in
  let stripped := drop_while is_slash rhead in
  string_of_list_ascii
    (rev (match stripped with [] => rhead | _ => stripped end)).

(** The text [json.dump(..., indent=2)] writes for a record of a name and
    an integer value, the name holding nothing to escape. *)
Definition dumps (v : value) : string :=
  match field v "name", field v "value" with
  | Some (VStr n), Some (VInt z) =>
      "{" +:+ newline +:+ "  " +:+ Demo.quoted "name" +:+ ": "
        +:+ Demo.quoted n +:+ "," +:+ newline +:+ "  "
        +:+ Demo.quoted "value" +:+ ": " +:+ pretty z +:+ newline +:+ "}"
  | _, _ => "null"
  end.

Definition saved : value :=
  VDict {[ "name" := VStr "Temp File Test"; "value" := VInt 100 ]}.

(** The text [{"processing": {"default_multiplier": null}}] *)
Definition null_config_text : string :=
  "{" +:+ Demo.quoted "processing" +:+ ": {"
    +:+ Demo.quoted "default_multiplier" +:+ ": null}}".

(** [json.loads] on the texts of this file system. *)
Definition loads (text : string) : string + value :=
  if bool_decide (text = dumps saved) then inr saved
  else if bool_decide (text = null_config_text) then
    inr (VDict {[ "processing" :=
                    VDict {[ "default_multiplier" := VNone ]} ]})
  else Demo.loads text.

Definition is_directory : exn :=
  Exn IsADirectoryError "[Errno 21] Is a directory".

Definition not_a_directory : exn :=
  Exn OSError "[Errno 20] Not a directory".

Definition put (s : string -> file_state) (path : string) (f : file_state)
  : string -> file_state :=
  fun p => if bool_decide (p = path) then f else s p.

(** A small file system: a state maps a path to what is there.  A
    directory can be made where nothing is and its parent is no file; a
    text can be written where no directory is and the parent directory
    exists (the empty parent is the working directory). *)
Definition api : os_api (string -> file_state) :=
  {| os_view := fun s p => s p;
     os_makedirs := fun s p =>
       match s p, s (posix_dirname p) with
       | NoFile, Readable _ => (s, Raise not_a_directory)
       | NoFile, _ => (put s p (Unreadable is_directory), Ok tt)
       | _, _ => (s, Raise (Exn OSError "[Errno 17] File exists"))
       end;
     os_write := fun s p text =>
       match s p with
       | Unreadable e => (s, Raise e)
       | _ =>
           if bool_decide (posix_dirname p = "") then
             (put s p (Readable text), Ok tt)
           else
             match s (posix_dirname p) with
             | Unreadable _ => (put s p (Readable text), Ok tt)
             | _ =>
                 (s, Raise (Exn FileNotFoundError
                              "[Errno 2] No such file or directory"))
             end
       end;
     os_dirname := posix_dirname;
     json_dumps := dumps |}.

(** A state with two regular files, [notes.txt] and [null.json]. *)
Definition start : string -> file_state :=
  fun p =>
    if bool_decide (p = "notes.txt") then Readable "not json"
    else if bool_decide (p = "null.json") then Readable null_config_text
    else NoFile.

Definition w : world :=
  {| json_loads := loads; fs := start; requests_request := Demo.http |}.

End DemoIO.

(* ================================================================== *)
(** * Properties of the native operations *)
(* ================================================================== *)

Section Numbers.

(** Not being below zero is being at least zero, except for NaN. *)
Lemma number_lt_zero_false (x : number) :
  number_lt_zero x = false <->
  number_ge_zero x = true \/ x = NFloat float_nan.
Proof.
  destruct x as [z | f]; simpl.
  - rewrite Z.ltb_ge, Z.leb_le. split; [auto | intros [H | H]; [lia | discriminate]].
  - destruct f as [s | s | | s m e]; try destruct s; cbn;
      (split;
       [ intros H; first [discriminate | left; reflexivity | right; reflexivity]
       | intros [H | H]; first [reflexivity | discriminate] ]).
Qed.

(** The products the specification quotes: [10 * 2 == 20] and
    [2.5 * 3 == 7.5]. *)
Example py_mul_ten_two : py_mul (VInt 10) (VInt 2) = Ok (VInt 20).
Proof. reflexivity. Qed.

Example py_mul_float_int :
  py_mul (VFloat Demo.two_and_half) (VInt 3) = Ok (VFloat Demo.seven_and_half).
Proof. vm_compute. reflexivity. Qed.

(** The largest integers that still convert: [2**1024 - 2**970 - 1] rounds
    down to the largest float, [2**1024 - 2**970] is a tie that rounds up
    and out of range. *)
Example float_of_int_largest :
  float_of_int (2 ^ 1024 - 2 ^ 970 - 1)
  = Ok (SpecFloat.S754_finite false 9007199254740991 971)
  /\ float_of_int (2 ^ 1024 - 2 ^ 970)
     = Raise (Exn OverflowError "int too large to convert to float").
Proof. split; vm_compute; reflexivity. Qed.

(** NaN is neither below zero nor at least zero. *)
Example nan_unordered :
  number_lt_zero (NFloat float_nan) = false
  /\ number_ge_zero (NFloat float_nan) = false.
Proof. split; reflexivity. Qed.



(** Multiplying by 1.0 changes no float. *)
Lemma digits2_shift (m : positive) :
  Z.pos (SpecFloat.digits2_pos (Pos.iter xO m 52))
  = Z.pos (SpecFloat.digits2_pos m) + 52.
Proof. cbn [Pos.iter SpecFloat.digits2_pos]. lia. Qed.

Lemma shr_shift (m : positive) :
  SpecFloat.iter_pos SpecFloat.shr_1 52
    {| SpecFloat.shr_m := Z.pos (Pos.iter xO m 52);
       SpecFloat.shr_r := false; SpecFloat.shr_s := false |}
  = {| SpecFloat.shr_m := Z.pos m;
       SpecFloat.shr_r := false; SpecFloat.shr_s := false |}.
Proof. reflexivity. Qed.

Lemma float_mul_one (f : float) :
  float_valid f = true ->
  float_mul (SpecFloat.S754_finite false 4503599627370496 (-52)) f = f.
Proof.
  destruct f as [s | s | | s m e]; try reflexivity.
  unfold float_valid, SpecFloat.valid_binary, SpecFloat.bounded,
    SpecFloat.canonical_mantissa.
  intros [Hc He]%andb_true_iff. apply Z.eqb_eq in Hc.
  unfold float_mul, SpecFloat.SFmul.
  change (xorb false s) with s.
  change (Pos.mul 4503599627370496 m) with (Pos.iter xO m 52).
  unfold SpecFloat.binary_round_aux.
  assert (SpecFloat.shr_fexp 53 1024 (Z.pos (Pos.iter xO m 52)) (-52 + e)
            SpecFloat.loc_Exact
          = ({| SpecFloat.shr_m := Z.pos m;
                SpecFloat.shr_r := false; SpecFloat.shr_s := false |}, e)) as ->.
  { unfold SpecFloat.shr_fexp, SpecFloat.Zdigits2.
    rewrite digits2_shift.
    replace (Z.pos (SpecFloat.digits2_pos m) + 52 + (-52 + e))
      with (Z.pos (SpecFloat.digits2_pos m) + e) by lia.
    rewrite Hc.
    replace (e - (-52 + e)) with 52 by lia.
    unfold SpecFloat.shr, SpecFloat.shr_record_of_loc.
    rewrite shr_shift. f_equal. lia. }
  cbn [SpecFloat.shr_m SpecFloat.loc_of_shr_record SpecFloat.round_nearest_even].
  unfold SpecFloat.shr_fexp, SpecFloat.Zdigits2.
  rewrite Hc, Z.sub_diag.
  cbn [SpecFloat.shr SpecFloat.shr_record_of_loc SpecFloat.shr_m].
  rewrite He. reflexivity.
Qed.

(** [True * g] is [g], and [False * g] is a zero when [g] is finite. *)
Lemma py_mul_true_float (g : float) :
  float_valid g = true -> py_mul (VBool true) (VFloat g) = Ok (VFloat g).
Proof.
  intros Hg.
  change (py_mul (VBool true) (VFloat g))
    with (Ok (VFloat (float_mul
                        (SpecFloat.S754_finite false 4503599627370496 (-52)) g))).
  now rewrite float_mul_one.
Qed.

Lemma py_mul_false_float (s : bool) (m : positive) (e : Z) :
  py_mul (VBool false) (VFloat (SpecFloat.S754_finite s m e))
  = Ok (VFloat (SpecFloat.S754_zero s)).
Proof. reflexivity. Qed.

(** A boolean converts to a float without overflow, so its product with
    any number is defined. *)
Lemma py_mul_bool_number (b : bool) (m : value) (x : number) :
  as_number m = Some x -> exists p, py_mul (VBool b) m = Ok p.
Proof.
  intros Hm. unfold py_mul. rewrite Hm. simpl.
  destruct x as [k | g]; simpl; [eauto |].
  destruct b; vm_compute; eauto.
Qed.

End Numbers.

(* ================================================================== *)
(** * The Validator *)
(* ================================================================== *)

Section Validator.

Lemma has_required_fields (d : dict) :
  has_fields d required_fields = true <->
  is_Some (d !! "name") /\ is_Some (d !! "value").
Proof.
  unfold required_fields, has_fields, dict_contains.
  destruct (d !! "name") as [n |], (d !! "value") as [v |]; simpl;
    split; try discriminate; eauto;
    intros [[? H1] [? H2]]; discriminate.
Qed.

Lemma validate_input_dict (d : dict) :
  validate_input (VDict d) = ([], Ok (checks d)).
Proof.
  unfold validate_input, checks.
  destruct (has_fields d required_fields) eqn:Hf; simpl.
  - apply has_required_fields in Hf as [[n Hn] [v Hv]].
    unfold dict_getitem. rewrite Hn, Hv. simpl.
    destruct n as [ | | | | s | | ]; simpl; try reflexivity.
    case_bool_decide; simpl; [reflexivity |].
    destruct v; simpl; try reflexivity;
      match goal with |- context [if ?c then _ else _] => destruct c end;
      reflexivity.
  - destruct (d !! "name") as [n |] eqn:Hn; [| reflexivity].
    destruct (d !! "value") as [v |] eqn:Hv;
      [| destruct n; reflexivity].
    assert (has_fields d required_fields = true) as Ht
      by (apply has_required_fields; split; eauto).
    congruence.
Qed.

(** [validate_input] touches nothing and never raises. *)
Lemma validate_input_pure (data : value) :
  exists b, validate_input data = ([], Ok b).
Proof.
  destruct data; try (exists false; reflexivity).
  eexists. apply validate_input_dict.
Qed.

Lemma checks_accepted (d : dict) :
  checks d = true <-> accepted_record (VDict d).
Proof.
  unfold checks, accepted_record. split.
  - destruct (d !! "name") as [[ | | | | n | | ] |] eqn:Hn; try discriminate.
    destruct (d !! "value") as [v |] eqn:Hv; try discriminate.
    destruct (as_number v) as [x |] eqn:Hx;
      [| rewrite andb_false_r; discriminate].
    intros [H1 H2]%andb_true_iff.
    apply negb_true_iff, bool_decide_eq_false in H1.
    apply negb_true_iff, number_lt_zero_false in H2.
    exists d, n, v, x. auto 10.
  - intros (d' & n & v & x & [= <-] & Hn & Hne & Hv & Hx & Hge).
    rewrite Hn, Hv, Hx.
    apply andb_true_iff. split.
    + apply negb_true_iff, bool_decide_eq_false. exact Hne.
    + apply negb_true_iff, number_lt_zero_false. exact Hge.
Qed.

End Validator.

(** C1 (as amended).  [validate_input] touches nothing, never raises, and
    answers true exactly for a mapping that has the keys [name] and
    [value], whose [name] is a non-empty string and whose [value] is an int
    or a float (a bool counts as an int) that is not below zero: it is
    [>= 0], or it is the float NaN.  Every other input gets false. *)
Theorem validate_input_accepts_iff (record : value) :
  exists b : bool,
    validate_input record = ([], Ok b)
    /\ (b = true <-> accepted_record record).
Proof.
  destruct record as [ | | | | | | d];
    try (exists false; split; [reflexivity |];
         split; [discriminate | intros (d & n & v & x & [=] & _)]).
  exists (checks d). split.
  - apply validate_input_dict.
  - apply checks_accepted.
Qed.

(** C1, as it is worded, fails on a record whose value is NaN: the code
    accepts it, although NaN is not [>= 0]. *)
Lemma validate_input_accepts_nan :
  validate_input Demo.nan_record = ([], Ok true)
  /\ ~ spec_valid Demo.nan_record.
Proof.
  split; [vm_compute; reflexivity |].
  intros (d & n & v & x & Hd & _ & _ & Hv & Hx & Hge).
  unfold Demo.nan_record in Hd. injection Hd as <-.
  vm_compute in Hv. injection Hv as <-.
  injection Hx as <-.
  vm_compute in Hge. discriminate.
Qed.

(* ================================================================== *)
(** * The Config Resolver *)
(* ================================================================== *)

Section Config.

Context (w : world).

Lemma caught_by_Exception (e : exn) : caught_by Exception e = true.
Proof. destruct e as [c msg]. destruct c; reflexivity. Qed.

(** What [load_config] does, by the state of the file system. *)
Lemma load_config_cases (path : string) :
  load_config w path =
  match fs w path with
  | NoFile => ([EvExists path], Ok (VDict ∅))
  | Unreadable e => ([EvExists path; EvRead path], Raise e)
  | Readable text =>
      ([EvExists path; EvRead path],
       match json_loads w text with
       | inr config => Ok config
       | inl msg => Raise (Exn JSONDecodeError msg)
       end)
  end.
Proof.
  unfold load_config, os_path_exists, read_text, json_decode.
  destruct (fs w path) as [ | e | text]; simpl.
  - reflexivity.
  - destruct (caught_by JSONDecodeError e); reflexivity.
  - destruct (json_loads w text); reflexivity.
Qed.

Lemma get_config_value_cases (section key : string) (default : value)
    (path : string) :
  get_config_value w section key default path =
  (trace (load_config w path),
   Ok (configured_value w path section key default)).
Proof.
  unfold get_config_value, configured_value, nested_entry, outcome, trace.
  destruct (load_config w path) as [t [config | e]]; simpl.
  - destruct config as [ | | | | | | c]; simpl;
      rewrite ?app_nil_r; try reflexivity.
    destruct (c !! section) as [s |]; simpl; [| reflexivity].
    destruct s as [ | | | | | | s]; simpl; rewrite ?app_nil_r;
      reflexivity.
  - rewrite caught_by_Exception, app_nil_r. reflexivity.
Qed.

End Config.

(** C5 (as amended).  [load_config] returns an empty mapping when the path
    does not exist and the decoded value when the file reads and holds
    well-formed JSON; it raises the decoder's error when the file reads but
    its content is not well-formed JSON, and it lets the error of [open] or
    [read] through when the path exists but cannot be read.  These two are
    the only ways it fails. *)
Theorem load_config_outcomes (w : world) (path : string) :
  outcome (load_config w path) =
    match fs w path with
    | NoFile => Ok (VDict ∅)
    | Readable text =>
        match json_loads w text with
        | inr config => Ok config
        | inl msg => Raise (Exn JSONDecodeError msg)
        end
    | Unreadable e => Raise e
    end
  /\ forall e : exn,
      outcome (load_config w path) = Raise e <->
      fs w path = Unreadable e
      \/ exists text msg,
          fs w path = Readable text /\ json_loads w text = inl msg
          /\ e = Exn JSONDecodeError msg.
Proof.
  rewrite load_config_cases. unfold outcome.
  destruct (fs w path) as [ | e0 | text]; simpl.
  - split; [reflexivity |]. intros e. split; [discriminate |].
    intros [H | (text & msg & H & _)]; discriminate.
  - split; [reflexivity |]. intros e. split.
    + intros [= ->]. now left.
    + intros [[= ->] | (text & msg & H & _)]; [reflexivity | discriminate].
  - split; [reflexivity |]. intros e.
    destruct (json_loads w text) as [msg | config] eqn:Hj; split.
    + intros [= <-]. right. exists text, msg. auto.
    + intros [H | (text' & msg' & [= <-] & Hj' & ->)]; [discriminate |].
      rewrite Hj in Hj'. injection Hj' as <-. reflexivity.
    + discriminate.
    + intros [H | (text' & msg' & [= <-] & Hj' & _)]; [discriminate |].
      rewrite Hj in Hj'. discriminate.
Qed.

(** C5, as it is worded, fails on a path that exists but cannot be opened
    as a file: [load_config] raises there, and the error is not a parse
    error of any file content. *)
Lemma load_config_fails_on_directory :
  outcome (load_config Demo.w ".")
  = Raise (Exn IsADirectoryError "[Errno 21] Is a directory: '.'")
  /\ ~ (exists text msg,
          fs Demo.w "." = Readable text /\ json_loads Demo.w text = inl msg).
Proof.
  split; [vm_compute; reflexivity |].
  intros (text & msg & H & _). vm_compute in H. discriminate.
Qed.

(** C4.  [get_config_value] never raises.  When loading the configuration
    fails, for whatever reason, it returns the default; otherwise it returns
    [config[section][key]] when both levels exist and the default when one
    of them is absent.  With no file at the path it returns the default. *)
Theorem get_config_value_never_raises (w : world) (section key : string)
    (default : value) (path : string) :
  let got := outcome (get_config_value w section key default path) in
  (exists v, got = Ok v)
  /\ (forall e, outcome (load_config w path) = Raise e -> got = Ok default)
  /\ (forall config,
        outcome (load_config w path) = Ok config ->
        got = Ok (match nested_entry config section key with
                  | Some v => v
                  | None => default
                  end))
  /\ (fs w path = NoFile -> got = Ok default).
Proof.
  intros got. subst got.
  assert (outcome (get_config_value w section key default path)
          = Ok (configured_value w path section key default)) as ->
    by (rewrite get_config_value_cases; reflexivity).
  unfold configured_value.
  split; [eauto | split; [| split]].
  - intros e ->. reflexivity.
  - intros config ->. reflexivity.
  - intros Hfs. rewrite load_config_cases, Hfs. reflexivity.
Qed.

Lemma get_config_value_never_raises_witness :
  outcome (get_config_value Demo.bare "processing" "default_multiplier"
             (VInt 2) "missing.json") = Ok (VInt 2)
  /\ outcome (get_config_value Demo.w "processing" "default_multiplier"
                (VInt 2) "notes.txt") = Ok (VInt 2)
  /\ outcome (get_config_value Demo.w "processing" "default_multiplier"
                (VInt 2) "config.json") = Ok (VFloat Demo.half).
Proof.
  split; [| split].
  - apply (get_config_value_never_raises Demo.bare "processing"
             "default_multiplier" (VInt 2) "missing.json").
    reflexivity.
  - apply (get_config_value_never_raises Demo.w "processing"
             "default_multiplier" (VInt 2) "notes.txt")
      with (e := Exn JSONDecodeError "Expecting value: line 1 column 1 (char 0)").
    vm_compute. reflexivity.
  - destruct (get_config_value_never_raises Demo.w "processing"
                "default_multiplier" (VInt 2) "config.json")
      as (_ & _ & H & _).
    rewrite (H (VDict {[ "processing" :=
                           VDict {[ "default_multiplier" := VFloat Demo.half ]} ]}))
      by (vm_compute; reflexivity).
    vm_compute. reflexivity.
Defined.

(* ================================================================== *)
(** * The Transformer *)
(* ================================================================== *)

Section Transformer.

Context (w : world).

Lemma processed_result_inserts (status : string) (n v p : value) :
  <["name" := n]>
    (<["processed_value" := p]>
       (<["original_value" := v]> (<["status" := VStr status]> ∅)))
  = processed_result status n v p.
Proof. reflexivity. Qed.

(** A rejected record stops [process_data] before anything else happens. *)
Lemma process_data_rejected (r : value) (path : string) :
  validate_input r = ([], Ok false) ->
  process_data w r path = ([], Raise (Exn ValueError "Invalid input data")).
Proof. intros H. unfold process_data. rewrite H. reflexivity. Qed.

(** An accepted record goes through the multiplication, and through
    nothing else that could fail. *)
Lemma process_data_checked (d : dict) (n v : value) (path : string) :
  checks d = true -> d !! "name" = Some n -> d !! "value" = Some v ->
  process_data w (VDict d) path =
  (trace (load_config w path),
   result_bind (py_mul v (multiplier_of w path))
     (fun p => Ok (processed_result "success" n v p))).
Proof.
  intros Hc Hn Hv. unfold process_data.
  rewrite validate_input_dict, Hc. simpl.
  rewrite get_config_value_cases. simpl.
  unfold dict_getitem. rewrite Hv, Hn. simpl.
  fold (multiplier_of w path).
  destruct (py_mul v (multiplier_of w path)) as [p | e]; simpl;
    rewrite ?app_nil_r; [| reflexivity].
  rewrite processed_result_inserts. reflexivity.
Qed.



Lemma rejected_is_unchecked (r : value) :
  outcome (validate_input r) = Ok false ->
  validate_input r = ([], Ok false).
Proof.
  destruct (validate_input_pure r) as [b ->]. now intros [= ->].
Qed.

End Transformer.




(** C3.  For every record that [validate_input] rejects, and so for every
    record whose name is empty or whose value is below zero,
    [process_data] raises [ValueError("Invalid input data")] with an empty
    trace: the configuration is not looked up, nothing is multiplied and no
    result is built. *)
Theorem process_data_invalid (w : world) (r : value) (path : string) :
  outcome (validate_input r) = Ok false
  \/ field r "name" = Some (VStr "")
  \/ (exists v x, field r "value" = Some v /\ as_number v = Some x
                  /\ number_lt_zero x = true) ->
  process_data w r path = ([], Raise (Exn ValueError "Invalid input data")).
Proof.
  intros H. apply process_data_rejected.
  destruct H as [H | [H | (v & x & Hv & Hx & Hlt)]].
  - now apply rejected_is_unchecked.
  - destruct r as [ | | | | | | d]; try discriminate. simpl in H.
    rewrite validate_input_dict. unfold checks. rewrite H.
    destruct (d !! "value"); reflexivity.
  - destruct r as [ | | | | | | d]; try discriminate. simpl in Hv.
    rewrite validate_input_dict. unfold checks. rewrite Hv, Hx, Hlt.
    destruct (d !! "name") as [[ | | | | n | | ] |]; try reflexivity.
    simpl. now rewrite andb_false_r.
Qed.

Lemma process_data_invalid_witness :
  process_data Demo.w Demo.invalid_sample "config.json"
  = ([], Raise (Exn ValueError "Invalid input data")).
Proof.
  apply (process_data_invalid Demo.w Demo.invalid_sample "config.json").
  left. vm_compute. reflexivity.
Defined.

(** C10.  A record whose name is a non-empty string and whose value is a
    boolean is accepted by [validate_input]; with a numeric multiplier
    [process_data] then succeeds, and [processed_value] is the native
    product of the boolean and the multiplier: for an integer multiplier
    [k] it is [k] for true and 0 for false; for a float multiplier [g] it is
    [g] for true and, when [g] is finite, a float zero for false. *)
Theorem validate_input_accepts_bool (w : world) (n : string) (b : bool)
    (path : string) :
  n <> "" ->
  let r := VDict {[ "name" := VStr n; "value" := VBool b ]} in
  let done p :=
    outcome (process_data w r path)
    = Ok (processed_result "success" (VStr n) (VBool b) p) in
  validate_input r = ([], Ok true)
  /\ (forall x,
        as_number (multiplier_of w path) = Some x ->
        exists p, py_mul (VBool b) (multiplier_of w path) = Ok p /\ done p)
  /\ (forall k,
        multiplier_of w path = VInt k -> done (VInt (if b then k else 0)))
  /\ (forall g,
        multiplier_of w path = VFloat g -> float_valid g = true ->
        b = true -> done (VFloat g))
  /\ (forall s m e,
        multiplier_of w path = VFloat (SpecFloat.S754_finite s m e) ->
        b = false -> done (VFloat (SpecFloat.S754_zero s))).
Proof.
  intros Hn r done.
  set (d := ({[ "name" := VStr n; "value" := VBool b ]} : dict)).
  assert (d !! "name" = Some (VStr n)) as Hname by reflexivity.
  assert (d !! "value" = Some (VBool b)) as Hvalue by reflexivity.
  assert (checks d = true) as Hc.
  { unfold checks. rewrite Hname, Hvalue. simpl.
    rewrite bool_decide_eq_false_2 by exact Hn. now destruct b. }
  assert (forall p, py_mul (VBool b) (multiplier_of w path) = Ok p -> done p)
    as Hdone.
  { intros p Hp. subst done r. fold d. simpl.
    rewrite (process_data_checked w d _ _ path Hc Hname Hvalue).
    unfold outcome. simpl. rewrite Hp. reflexivity. }
  split; [| split; [| split; [| split]]].
  - subst r. fold d. rewrite validate_input_dict, Hc. reflexivity.
  - intros x Hx.
    destruct (py_mul_bool_number b _ x Hx) as [p Hp]. eauto.
  - intros k Hk. apply Hdone. rewrite Hk.
    destruct b; simpl; [| reflexivity]. now destruct k.
  - intros g Hg Hvalid ->. apply Hdone. rewrite Hg.
    now apply py_mul_true_float.
  - intros s m e Hg ->. apply Hdone. rewrite Hg.
    apply py_mul_false_float.
Qed.

Lemma validate_input_accepts_bool_witness :
  validate_input (VDict {[ "name" := VStr "flag"; "value" := VBool true ]})
  = ([], Ok true)
  /\ outcome (process_data Demo.bare
                (VDict {[ "name" := VStr "flag"; "value" := VBool true ]})
                "config.json")
     = Ok (processed_result "success" (VStr "flag") (VBool true) (VInt 2)).
Proof.
  assert ("flag" <> "") as Hne by discriminate.
  destruct (validate_input_accepts_bool Demo.bare "flag" true "config.json" Hne)
    as (Hv & _ & Hk & _).
  split; [exact Hv |].
  apply (Hk 2). vm_compute. reflexivity.
Defined.

(* ================================================================== *)
(** * The API path of the driver *)
(* ================================================================== *)

Section ApiPath.

Context (w : world).

Lemma process_api_response_cases (body : dict) (path : string) :
  process_api_response w (VDict body) path =
  match process_data w (remap body) path with
  | (t, Ok result) => (t, Ok (<["status" := VStr "processed"]> result))
  | (t, Raise e) =>
      if caught_by ValueError e then
        (t, Ok {[ "status" := VStr "error"; "message" := VStr (str_exn e) ]})
      else (t, Raise e)
  end.
Proof.
  unfold process_api_response. simpl.
  change (VDict (<["value" := _]> (<["name" := _]> ∅))) with (remap body).
  destruct (process_data w (remap body) path) as [t [result | e]]; simpl;
    rewrite ?app_nil_r; [reflexivity |].
  destruct (caught_by ValueError e); rewrite ?app_nil_r; reflexivity.
Qed.

End ApiPath.



(* ================================================================== *)
(** * The source adapters *)
(* ================================================================== *)

Section Adapters.

Context (w : world).

Lemma file_automation_cases (path : string) :
  outcome (file_automation w path) =
  Ok match fs w path with
     | NoFile => operation_result false ("File not found: " +:+ path) VNone
     | Readable text =>
         match json_loads w text with
         | inr data =>
             operation_result true "File successfully processed as JSON" data
         | inl _ =>
             operation_result false "File content is not valid JSON"
               (VStr text)
         end
     | Unreadable e =>
         operation_result false ("Error processing file: " +:+ str_exn e)
           VNone
     end.
Proof.
  unfold file_automation, os_path_exists, read_text, json_decode, outcome.
  destruct (fs w path) as [ | e | text]; simpl.
  - reflexivity.
  - rewrite caught_by_Exception. reflexivity.
  - destruct (json_loads w text) as [msg | data]; reflexivity.
Qed.

Lemma api_automation_cases (url method : string)
    (headers : option (gmap string string)) (data : option dict) :
  outcome (api_automation w url method headers data) =
  Ok match requests_request w (build_request url method headers data) with
     | Ok resp =>
         if in_2xx (status_code resp) then
           api_result true
             (match resp_json resp with
              | Some _ => "API request successful"
              | None => "API request successful but response is not JSON"
              end)
             (body_of resp) (VInt (status_code resp))
         else
           api_result false
             ("API request failed with status code: "
                +:+ pretty (status_code resp))
             (body_of resp) (VInt (status_code resp))
     | Raise e =>
         api_result false ("Error making API request: " +:+ str_exn e)
           VNone VNone
     end.
Proof.
  unfold api_automation, request, response_json, outcome, in_2xx, body_of.
  destruct (requests_request w (build_request url method headers data))
    as [resp | e]; simpl.
  - destruct ((200 <=? status_code resp) && (status_code resp <? 300));
      destruct (resp_json resp); reflexivity.
  - rewrite caught_by_Exception. reflexivity.
Qed.

Lemma prefixed_nonempty (c : ascii) (prefix s : string) :
  String c prefix +:+ s <> "".
Proof. discriminate. Qed.

End Adapters.

(** C6.  [file_automation] never raises and returns one OperationResult:
    for a path that does not exist, failure with the message
    "File not found: <path>" and no data; for a file whose content decodes
    as JSON, success with the decoded value; for a file whose content does
    not decode, failure with the raw text as data; for any other failure of
    the read, failure with a message that holds the error's description. *)
Theorem file_automation_result (w : world) (path : string) :
  (exists r, outcome (file_automation w path) = Ok r)
  /\ (fs w path = NoFile ->
      outcome (file_automation w path)
      = Ok (operation_result false ("File not found: " +:+ path) VNone))
  /\ (forall text data,
        fs w path = Readable text -> json_loads w text = inr data ->
        outcome (file_automation w path)
        = Ok (operation_result true "File successfully processed as JSON" data))
  /\ (forall text msg,
        fs w path = Readable text -> json_loads w text = inl msg ->
        outcome (file_automation w path)
        = Ok (operation_result false "File content is not valid JSON"
                (VStr text)))
  /\ (forall e,
        fs w path = Unreadable e ->
        outcome (file_automation w path)
        = Ok (operation_result false
                ("Error processing file: " +:+ str_exn e) VNone)).
Proof.
  rewrite file_automation_cases.
  split; [eauto |]. split; [| split; [| split]].
  - intros ->. reflexivity.
  - intros text data -> ->. reflexivity.
  - intros text msg -> ->. reflexivity.
  - intros e ->. reflexivity.
Qed.

Lemma file_automation_result_witness :
  outcome (file_automation Demo.w "nope.json")
  = Ok (operation_result false "File not found: nope.json" VNone)
  /\ outcome (file_automation Demo.w "data.json")
     = Ok (operation_result true "File successfully processed as JSON"
             (VDict {[ "name" := VStr "Temp File Test";
                       "value" := VInt 100 ]}))
  /\ outcome (file_automation Demo.w "notes.txt")
     = Ok (operation_result false "File content is not valid JSON"
             (VStr "not json"))
  /\ outcome (file_automation Demo.w ".")
     = Ok (operation_result false
             "Error processing file: [Errno 21] Is a directory: '.'" VNone).
Proof.
  destruct (file_automation_result Demo.w "nope.json") as (_ & H1 & _).
  destruct (file_automation_result Demo.w "data.json") as (_ & _ & H2 & _).
  destruct (file_automation_result Demo.w "notes.txt") as (_ & _ & _ & H3 & _).
  destruct (file_automation_result Demo.w ".") as (_ & _ & _ & _ & H4).
  split; [| split; [| split]].
  - apply H1. reflexivity.
  - apply (H2 Demo.record_text); vm_compute; reflexivity.
  - apply (H3 "not json" "Expecting value: line 1 column 1 (char 0)");
      vm_compute; reflexivity.
  - apply (H4 (Exn IsADirectoryError "[Errno 21] Is a directory: '.'")).
    reflexivity.
Defined.

(** C7.  [api_automation] never raises.  When the request yields a
    response, the result records its status code, its data is the decoded
    JSON body or else the raw text, and success is true exactly when the
    status code is in [200,300); outside that range success is false and
    the message names the status code.  When the request itself fails,
    success is false, the message holds the error's description, and the
    status code is null. *)
Theorem api_automation_result (w : world) (url method : string)
    (headers : option (gmap string string)) (data : option dict) :
  exists r : dict,
    outcome (api_automation w url method headers data) = Ok r
    /\ (forall resp,
          requests_request w (build_request url method headers data) = Ok resp ->
          r !! "status_code" = Some (VInt (status_code resp))
          /\ r !! "data" = Some (body_of resp)
          /\ (r !! "success" = Some (VBool true)
              <-> 200 <= status_code resp < 300)
          /\ (~ 200 <= status_code resp < 300 ->
              r !! "success" = Some (VBool false)
              /\ r !! "message"
                 = Some (VStr ("API request failed with status code: "
                                 +:+ pretty (status_code resp)))))
    /\ (forall e,
          requests_request w (build_request url method headers data) = Raise e ->
          r = api_result false ("Error making API request: " +:+ str_exn e)
                VNone VNone).
Proof.
  eexists. split; [apply api_automation_cases |].
  split.
  - intros resp ->. unfold in_2xx.
    destruct (200 <=? status_code resp) eqn:Hlo;
      destruct (status_code resp <? 300) eqn:Hhi; simpl;
      rewrite ?Z.leb_le, ?Z.leb_gt, ?Z.ltb_lt, ?Z.ltb_ge in Hlo, Hhi;
      (split; [reflexivity |]); (split; [reflexivity |]);
      (split; [split; [try discriminate; lia | intros; try lia; reflexivity] |]);
      intros Hout; try lia; split; reflexivity.
  - intros e ->. reflexivity.
Qed.

Lemma api_automation_result_witness :
  exists r : dict,
    outcome (api_automation Demo.w "https://example.test/missing" "get"
               None None) = Ok r
    /\ r !! "success" = Some (VBool false)
    /\ r !! "status_code" = Some (VInt 404)
    /\ r !! "data" = Some (VStr "Not Found")
    /\ r !! "message"
       = Some (VStr "API request failed with status code: 404").
Proof.
  destruct (api_automation_result Demo.w "https://example.test/missing" "get"
              None None) as (r & Hr & Hresp & _).
  exists r. split; [exact Hr |].
  destruct (Hresp {| status_code := 404; resp_text := "Not Found";
                     resp_json := None |})
    as (Hcode & Hdata & _ & Hout).
  - vm_compute. reflexivity.
  - destruct Hout as [Hs Hm]; [simpl; lia |].
    repeat split; assumption.
Defined.

(** C9.  Whatever either adapter returns with [success] false carries a
    message that is a non-empty string. *)
Theorem failure_has_message (w : world) (c : adapter_call) (r : dict) :
  outcome (run_adapter w c) = Ok r ->
  r !! "success" = Some (VBool false) ->
  exists m : string, r !! "message" = Some (VStr m) /\ m <> "".
Proof.
  destruct c as [path | url method headers data]; simpl.
  - rewrite file_automation_cases. intros [= <-].
    destruct (fs w path) as [ | e | text].
    + intros _. eexists. split; [reflexivity | apply prefixed_nonempty].
    + intros _. eexists. split; [reflexivity | apply prefixed_nonempty].
    + destruct (json_loads w text) as [msg | v].
      * intros _. eexists. split; [reflexivity | discriminate].
      * discriminate.
  - rewrite api_automation_cases. intros [= <-].
    destruct (requests_request w (build_request url method headers data))
      as [resp | e].
    + destruct (in_2xx (status_code resp)).
      * discriminate.
      * intros _. eexists. split; [reflexivity | apply prefixed_nonempty].
    + intros _. eexists. split; [reflexivity | apply prefixed_nonempty].
Qed.

Lemma failure_has_message_witness :
  exists m : string,
    operation_result false "File content is not valid JSON" (VStr "not json")
      !! "message" = Some (VStr m)
    /\ m <> "".
Proof.
  apply (failure_has_message Demo.w (FileCall "notes.txt")).
  - vm_compute. reflexivity.
  - reflexivity.
Defined.

(* ================================================================== *)
(** * Processing a file *)
(* ================================================================== *)

Section FilePath.

Import Driver.

Context (w : world).

(** What [process_file] does, by the state of the input file. *)
Lemma process_file_cases (file_path config_path : string) :
  process_file w file_path config_path =
  match fs w file_path with
  | NoFile =>
      ([EvRead file_path],
       Raise (Exn FileNotFoundError
                ("[Errno 2] No such file or directory: '"
                   +:+ file_path +:+ "'")))
  | Unreadable e => ([EvRead file_path], Raise e)
  | Readable text =>
      match json_loads w text with
      | inl msg => ([EvRead file_path], Raise (Exn JSONDecodeError msg))
      | inr data =>
          (EvRead file_path :: trace (process_data w data config_path),
           outcome (process_data w data config_path))
      end
  end.
Proof.
  unfold process_file, try_excepts, read_text, json_decode.
  destruct (fs w file_path) as [ | e | text]; simpl.
  - reflexivity.
  - destruct (caught_by FileNotFoundError e); simpl;
      [reflexivity |].
    destruct (caught_by JSONDecodeError e); reflexivity.
  - destruct (json_loads w text) as [msg | data]; simpl; [reflexivity |].
    destruct (process_data w data config_path) as [t r]. reflexivity.
Qed.

End FilePath.

(** X1.  When the input file is missing, cannot be read or does not hold
    JSON, [process_file] raises that very error after a single attempt to
    read the file: it makes no existence test and never consults the
    configuration. *)
Theorem process_file_input_errors (w : world) (file_path config_path : string) :
  (fs w file_path = NoFile ->
   Driver.process_file w file_path config_path
   = ([EvRead file_path],
      Raise (Exn FileNotFoundError
               ("[Errno 2] No such file or directory: '"
                  +:+ file_path +:+ "'"))))
  /\ (forall e,
        fs w file_path = Unreadable e ->
        Driver.process_file w file_path config_path
        = ([EvRead file_path], Raise e))
  /\ (forall text msg,
        fs w file_path = Readable text -> json_loads w text = inl msg ->
        Driver.process_file w file_path config_path
        = ([EvRead file_path], Raise (Exn JSONDecodeError msg))).
Proof.
  rewrite process_file_cases. split; [| split].
  - intros ->. reflexivity.
  - intros e ->. reflexivity.
  - intros text msg -> ->. reflexivity.
Qed.

Lemma process_file_input_errors_witness :
  Driver.process_file Demo.w "nope.json" "config.json"
  = ([EvRead "nope.json"],
     Raise (Exn FileNotFoundError
              "[Errno 2] No such file or directory: 'nope.json'"))
  /\ Driver.process_file Demo.w "notes.txt" "config.json"
     = ([EvRead "notes.txt"],
        Raise (Exn JSONDecodeError "Expecting value: line 1 column 1 (char 0)")).
Proof.
  destruct (process_file_input_errors Demo.w "nope.json" "config.json")
    as (H1 & _).
  destruct (process_file_input_errors Demo.w "notes.txt" "config.json")
    as (_ & _ & H3).
  split.
  - apply H1. reflexivity.
  - apply (H3 "not json"); reflexivity.
Defined.

(** X2.  On a file that reads and decodes, [process_file] is
    [process_data] on the decoded value as it is, with no remapping of
    keys: the same outcome, after the one read of the input file. *)
Theorem process_file_is_process_data (w : world)
    (file_path config_path text : string) (data : value) :
  fs w file_path = Readable text -> json_loads w text = inr data ->
  outcome (Driver.process_file w file_path config_path)
  = outcome (process_data w data config_path)
  /\ trace (Driver.process_file w file_path config_path)
     = EvRead file_path :: trace (process_data w data config_path).
Proof.
  intros Hf Hj. rewrite process_file_cases, Hf, Hj. split; reflexivity.
Qed.

Lemma process_file_is_process_data_witness :
  outcome (Driver.process_file Demo.w "data.json" "missing.json")
  = outcome (process_data Demo.w
               (VDict {[ "name" := VStr "Temp File Test";
                         "value" := VInt 100 ]}) "missing.json").
Proof.
  apply (process_file_is_process_data Demo.w "data.json" "missing.json"
           Demo.record_text);
    vm_compute; reflexivity.
Defined.

(** X3.  A file that decodes to something [validate_input] rejects makes
    [process_file] raise [ValueError("Invalid input data")]; the input file
    has been read and nothing else: the configuration is not looked at. *)
Theorem process_file_rejects (w : world) (file_path config_path text : string)
    (data : value) :
  fs w file_path = Readable text -> json_loads w text = inr data ->
  outcome (validate_input data) = Ok false ->
  Driver.process_file w file_path config_path
  = ([EvRead file_path], Raise (Exn ValueError "Invalid input data")).
Proof.
  intros Hf Hj Hv. rewrite process_file_cases, Hf, Hj.
  rewrite (process_data_rejected w data config_path)
    by now apply rejected_is_unchecked.
  reflexivity.
Qed.

Lemma process_file_rejects_witness :
  Driver.process_file Demo.w "config.json" "config.json"
  = ([EvRead "config.json"], Raise (Exn ValueError "Invalid input data")).
Proof.
  apply (process_file_rejects Demo.w "config.json" "config.json"
           Demo.config_text
           (VDict {[ "processing" :=
                       VDict {[ "default_multiplier" := VFloat Demo.half ]} ]}));
    vm_compute; reflexivity.
Defined.



(* ================================================================== *)
(** * More on the Validator and the Transformer *)
(* ================================================================== *)

Section TransformerMore.

Context (w : world).



End TransformerMore.











(* ================================================================== *)
(** * More on the API path *)
(* ================================================================== *)

(** X9.  A response body that is not a mapping makes
    [process_api_response] raise [AttributeError] at once.  The API adapter
    produces such a body with [success] true: a 2xx response whose body is
    not JSON has the raw text as data. *)
Theorem non_mapping_body_raises (w : world) (body : value)
    (config_path : string) :
  (forall d, body <> VDict d) ->
  process_api_response w body config_path
  = ([], Raise (Exn AttributeError
                  ("'" +:+ type_name body +:+ "' object has no attribute 'get'")))
  /\ (forall url method headers data resp,
        requests_request w (build_request url method headers data) = Ok resp ->
        in_2xx (status_code resp) = true -> resp_json resp = None ->
        body = VStr (resp_text resp) ->
        outcome (api_automation w url method headers data)
        = Ok (api_result true
                "API request successful but response is not JSON"
                body (VInt (status_code resp)))).
Proof.
  intros Hbody. split.
  - destruct body as [ | | | | | | d]; try reflexivity.
    now destruct (Hbody d).
  - intros url method headers data resp Hreq H2xx Hjson ->.
    rewrite api_automation_cases, Hreq, H2xx. unfold body_of.
    rewrite Hjson. reflexivity.
Qed.

Lemma non_mapping_body_raises_witness :
  process_api_response Demo.w (VStr "<html>") "config.json"
  = ([], Raise (Exn AttributeError "'str' object has no attribute 'get'")).
Proof.
  apply (non_mapping_body_raises Demo.w (VStr "<html>") "config.json").
  discriminate.
Defined.



(** X11.  The defaults of the API path stand in for absent keys only.  A
    body with neither [title] nor [id] is processed as the record
    [{name: "Unknown", value: 0}]; a title that is present but empty or no
    string, and an id that is present but no number, give the error
    record, not the default. *)
Theorem api_defaults_for_absent_keys (w : world) (b : dict) (path : string) :
  (b !! "title" = None -> b !! "id" = None ->
   forall k, multiplier_of w path = VInt k ->
   outcome (process_api_response w (VDict b) path)
   = Ok (processed_result "processed" (VStr "Unknown") (VInt 0) (VInt 0)))
  /\ (forall t,
        b !! "title" = Some t -> (forall s, t = VStr s -> s = "") ->
        outcome (process_api_response w (VDict b) path)
        = Ok (api_error_result "Invalid input data"))
  /\ (forall i,
        b !! "id" = Some i -> isinstance_int_float i = false ->
        outcome (process_api_response w (VDict b) path)
        = Ok (api_error_result "Invalid input data")).
Proof.
  rewrite process_api_response_cases. unfold remap.
  split; [| split].
  - intros Ht Hi k Hk. rewrite Ht, Hi. simpl.
    rewrite (process_data_checked w _ (VStr "Unknown") (VInt 0) path)
      by reflexivity.
    rewrite Hk. reflexivity.
  - intros t Ht Hempty. rewrite Ht. simpl.
    rewrite (process_data_rejected w _ path); [reflexivity |].
    rewrite validate_input_dict. f_equal. f_equal.
    unfold checks.
    replace (({[ "name" := t; "value" := default (VInt 0) (b !! "id") ]} : dict)
               !! "name") with (Some t) by reflexivity.
    destruct t as [ | | | | s | | ]; try reflexivity.
    rewrite (Hempty s eq_refl).
    match goal with |- context [_ !! "value"] => destruct (_ !! "value") end;
      reflexivity.
  - intros i Hi Hnum. rewrite Hi. simpl.
    rewrite (process_data_rejected w _ path); [reflexivity |].
    rewrite validate_input_dict. f_equal. f_equal.
    unfold checks.
    replace (({[ "name" := default (VStr "Unknown") (b !! "title");
                 "value" := i ]} : dict) !! "value") with (Some i)
      by reflexivity.
    match goal with |- context [_ !! "name"] => destruct (_ !! "name") as [[ | | | | s | | ] |] end;
      try reflexivity.
    destruct i; try discriminate; simpl; now rewrite andb_false_r.
Qed.

Lemma api_defaults_for_absent_keys_witness :
  outcome (process_api_response Demo.bare (VDict ∅) "config.json")
  = Ok (processed_result "processed" (VStr "Unknown") (VInt 0) (VInt 0))
  /\ outcome (process_api_response Demo.bare
                (VDict {[ "title" := VStr ""; "id" := VInt 7 ]}) "config.json")
     = Ok (api_error_result "Invalid input data")
  /\ outcome (process_api_response Demo.bare
                (VDict {[ "title" := VStr "x"; "id" := VNone ]}) "config.json")
     = Ok (api_error_result "Invalid input data").
Proof.
  split; [| split].
  - destruct (api_defaults_for_absent_keys Demo.bare ∅ "config.json")
      as (H & _).
    apply (H eq_refl eq_refl 2). vm_compute. reflexivity.
  - destruct (api_defaults_for_absent_keys Demo.bare
                {[ "title" := VStr ""; "id" := VInt 7 ]} "config.json")
      as (_ & H & _).
    apply (H (VStr "")); [reflexivity |]. now intros s [= <-].
  - destruct (api_defaults_for_absent_keys Demo.bare
                {[ "title" := VStr "x"; "id" := VNone ]} "config.json")
      as (_ & _ & H).
    apply (H VNone); reflexivity.
Defined.

(* ================================================================== *)
(** * More on the source adapters *)
(* ================================================================== *)

(** X12.  The request carries a JSON payload exactly when the method, put
    in upper case, is POST, PUT or PATCH and [data] is a dict that is not
    empty: an empty dict is never sent.  The URL goes out unchanged and the
    method in upper case. *)
Theorem request_payload_rule (url method : string)
    (headers : option (gmap string string)) (data : option dict) :
  let kw := build_request url method headers data in
  rk_url kw = url
  /\ rk_method kw = str_upper method
  /\ (forall payload : dict,
        rk_json kw = Some payload <->
        str_upper method ∈ ["POST"; "PUT"; "PATCH"]
        /\ data = Some payload /\ payload <> ∅).
Proof.
  unfold build_request.
  destruct (bool_decide (str_upper method ∈ ["POST"; "PUT"; "PATCH"])) eqn:Hm;
    [apply bool_decide_eq_true in Hm | apply bool_decide_eq_false in Hm].
  - destruct data as [d |]; simpl.
    + destruct (bool_decide (d = ∅)) eqn:Hd;
        [apply bool_decide_eq_true in Hd | apply bool_decide_eq_false in Hd];
        simpl; (split; [reflexivity |]); (split; [reflexivity |]);
        intros payload; split.
      * discriminate.
      * intros (_ & [= <-] & Hne). contradiction.
      * intros [= <-]. auto.
      * intros (_ & [= <-] & _). reflexivity.
    + split; [reflexivity |]. split; [reflexivity |].
      intros payload. split; [discriminate |].
      intros (_ & H & _). discriminate.
  - simpl. split; [reflexivity |]. split; [reflexivity |].
    intros payload. split; [discriminate |].
    intros (H & _). contradiction.
Qed.

(** X13.  [api_automation] issues exactly one HTTP request whatever
    happens, success, error status or failure of the transport: there is
    no retry, and no file is touched. *)
Theorem api_automation_one_request (w : world) (url method : string)
    (headers : option (gmap string string)) (data : option dict) :
  trace (api_automation w url method headers data)
  = [EvRequest (build_request url method headers data)].
Proof.
  unfold api_automation, request, response_json, trace.
  destruct (requests_request w (build_request url method headers data))
    as [resp | e]; simpl.
  - destruct ((200 <=? status_code resp) && (status_code resp <? 300));
      destruct (resp_json resp); reflexivity.
  - rewrite caught_by_Exception. reflexivity.
Qed.

(** X14.  [file_automation] tests the path once and opens it at most
    once: a path that does not exist is never opened, and nothing but the
    given path is touched. *)
Theorem file_automation_accesses (w : world) (path : string) :
  trace (file_automation w path)
  = match fs w path with
    | NoFile => [EvExists path]
    | _ => [EvExists path; EvRead path]
    end.
Proof.
  unfold file_automation, os_path_exists, read_text, json_decode, trace.
  destruct (fs w path) as [ | e | text]; simpl.
  - reflexivity.
  - rewrite caught_by_Exception. reflexivity.
  - destruct (json_loads w text); reflexivity.
Qed.

(** X15.  Every result of an adapter has the shape of the envelope: a
    boolean [success], a string [message] and a [data] entry; the file
    adapter adds no other key, the API adapter adds [status_code], which is
    an integer or null, and is an integer whenever [success] is true. *)
Theorem adapter_result_shape (w : world) (c : adapter_call) (r : dict) :
  outcome (run_adapter w c) = Ok r ->
  exists (success : bool) (message : string) (data : value),
    match c with
    | FileCall _ => r = operation_result success message data
    | ApiCall _ _ _ _ =>
        (exists code : Z, r = api_result success message data (VInt code))
        \/ (success = false /\ r = api_result false message data VNone)
    end.
Proof.
  destruct c as [path | url method headers data]; simpl.
  - rewrite file_automation_cases. intros [= <-].
    destruct (fs w path) as [ | e | text].
    + now exists false, ("File not found: " +:+ path), VNone.
    + now exists false, ("Error processing file: " +:+ str_exn e), VNone.
    + destruct (json_loads w text) as [msg | v].
      * now exists false, "File content is not valid JSON", (VStr text).
      * now exists true, "File successfully processed as JSON", v.
  - rewrite api_automation_cases. intros [= <-].
    destruct (requests_request w (build_request url method headers data))
      as [resp | e].
    + destruct (in_2xx (status_code resp)).
      * exists true,
          (match resp_json resp with
           | Some _ => "API request successful"
           | None => "API request successful but response is not JSON"
           end), (body_of resp).
        left. now exists (status_code resp).
      * exists false,
          ("API request failed with status code: "
             +:+ pretty (status_code resp)), (body_of resp).
        left. now exists (status_code resp).
    + exists false, ("Error making API request: " +:+ str_exn e), VNone.
      right. split; reflexivity.
Qed.

Lemma adapter_result_shape_witness :
  exists (success : bool) (message : string) (data : value),
    (exists code : Z,
        api_result false "API request failed with status code: 404"
          (VStr "Not Found") (VInt 404)
        = api_result success message data (VInt code))
    \/ (success = false
        /\ api_result false "API request failed with status code: 404"
             (VStr "Not Found") (VInt 404)
           = api_result false message data VNone).
Proof.
  apply (adapter_result_shape Demo.w
           (ApiCall "https://example.test/missing" "get" None None)
           (api_result false "API request failed with status code: 404"
              (VStr "Not Found") (VInt 404))).
  vm_compute. reflexivity.
Defined.

(* ================================================================== *)
(** * Directories and JSON files *)
(* ================================================================== *)

Section FileSystem.

Import UtilsIO.

Context {S : Type} (api : os_api S).

Lemma ensure_directory_exists_cases (path : string) (s : S) :
  ensure_directory_exists api path s =
  match os_view api s path with
  | NoFile =>
      (fst (os_makedirs api s path), [OsExists path; OsMakedirs path],
       Ok (succeeded (snd (os_makedirs api s path))))
  | _ => (s, [OsExists path], Ok true)
  end.
Proof.
  unfold ensure_directory_exists, io_try, io_bind, io_exists, io_makedirs,
    io_ret.
  destruct (os_view api s path); simpl; try reflexivity.
  destruct (os_makedirs api s path) as [s1 [u | e]]; simpl;
    [reflexivity |].
  rewrite caught_by_Exception. reflexivity.
Qed.

Lemma save_json_cases (data : value) (path : string) (s : S) :
  let dir := os_dirname api path in
  let text := json_dumps api data in
  let write (s0 : S) (before : list os_event) :=
    (fst (os_write api s0 path text),
     (before ++ [OsWrite path text])%list,
     Ok (succeeded (snd (os_write api s0 path text)))) in
  save_json api data path s =
  if bool_decide (dir = "") then write s []
  else
    match os_view api s dir with
    | NoFile =>
        match os_makedirs api s dir with
        | (s1, Ok _) => write s1 [OsExists dir; OsMakedirs dir]
        | (s1, Raise _) => (s1, [OsExists dir; OsMakedirs dir], Ok false)
        end
    | _ => write s [OsExists dir]
    end.
Proof.
  intros dir text write. subst write.
  unfold save_json, io_try, io_bind, io_exists, io_makedirs, io_dump, io_ret.
  fold dir. fold text. simpl.
  destruct (bool_decide (dir = "")); simpl.
  - destruct (os_write api s path text) as [s2 [u | e']]; simpl;
      [reflexivity |].
    rewrite caught_by_Exception. reflexivity.
  - destruct (os_view api s dir); simpl.
    + destruct (os_makedirs api s dir) as [s1 [u | e]]; simpl.
      * destruct (os_write api s1 path text) as [s2 [u' | e']]; simpl;
          [reflexivity |].
        rewrite caught_by_Exception. reflexivity.
      * rewrite caught_by_Exception. reflexivity.
    + destruct (os_write api s path text) as [s2 [u | e']]; simpl;
        [reflexivity |].
      rewrite caught_by_Exception. reflexivity.
    + destruct (os_write api s path text) as [s2 [u | e']]; simpl;
        [reflexivity |].
      rewrite caught_by_Exception. reflexivity.
Qed.

End FileSystem.

(** X16.  [ensure_directory_exists] never raises.  For a path that exists
    already it answers true and creates nothing, whether the path is a
    directory or a regular file; for a path that does not exist it calls
    [os.makedirs] once and answers true exactly when that call succeeds. *)
Theorem ensure_directory_exists_result {S : Type} (api : UtilsIO.os_api S)
    (path : string) (s : S) :
  (UtilsIO.os_view api s path <> NoFile ->
   UtilsIO.ensure_directory_exists api path s
   = (s, [UtilsIO.OsExists path], Ok true))
  /\ (UtilsIO.os_view api s path = NoFile ->
      UtilsIO.ensure_directory_exists api path s
      = (fst (UtilsIO.os_makedirs api s path),
         [UtilsIO.OsExists path; UtilsIO.OsMakedirs path],
         Ok (succeeded (snd (UtilsIO.os_makedirs api s path))))).
Proof.
  rewrite ensure_directory_exists_cases. split.
  - intros H. destruct (UtilsIO.os_view api s path); [contradiction | ..];
      reflexivity.
  - intros ->. reflexivity.
Qed.

Lemma ensure_directory_exists_result_witness :
  UtilsIO.ensure_directory_exists DemoIO.api "notes.txt" DemoIO.start
  = (DemoIO.start, [UtilsIO.OsExists "notes.txt"], Ok true)
  /\ snd (UtilsIO.ensure_directory_exists DemoIO.api "notes.txt/sub"
            DemoIO.start) = Ok false
  /\ snd (UtilsIO.ensure_directory_exists DemoIO.api "out" DemoIO.start)
     = Ok true.
Proof.
  destruct (ensure_directory_exists_result DemoIO.api "notes.txt" DemoIO.start)
    as (H1 & _).
  destruct (ensure_directory_exists_result DemoIO.api "notes.txt/sub"
              DemoIO.start) as (_ & H2).
  destruct (ensure_directory_exists_result DemoIO.api "out" DemoIO.start)
    as (_ & H3).
  split; [| split].
  - apply H1. discriminate.
  - rewrite H2 by reflexivity. reflexivity.
  - rewrite H3 by reflexivity. reflexivity.
Defined.

(** X17.  [save_json] never raises and answers with a boolean.  It answers
    true only when the text of [data] was written to [file_path] and the
    write succeeded, the write being its last call.  When the parent
    directory is missing and cannot be created, it answers false and does
    not attempt the write. *)
Theorem save_json_result {S : Type} (api : UtilsIO.os_api S) (data : value)
    (path : string) (s : S) :
  let dir := UtilsIO.os_dirname api path in
  let text := UtilsIO.json_dumps api data in
  exists (s' : S) (t : list UtilsIO.os_event) (b : bool),
    UtilsIO.save_json api data path s = (s', t, Ok b)
    /\ (b = true ->
        exists (s0 : S) (u : unit),
          UtilsIO.os_write api s0 path text = (s', Ok u)
          /\ last t = Some (UtilsIO.OsWrite path text))
    /\ (forall s1 e,
          dir <> "" -> UtilsIO.os_view api s dir = NoFile ->
          UtilsIO.os_makedirs api s dir = (s1, Raise e) ->
          s' = s1 /\ b = false
          /\ t = [UtilsIO.OsExists dir; UtilsIO.OsMakedirs dir]).
Proof.
  intros dir text.
  pose proof (save_json_cases api data path s) as Hcases.
  simpl in Hcases. fold dir in Hcases. fold text in Hcases.
  assert (forall s0 before,
            succeeded (snd (UtilsIO.os_write api s0 path text)) = true ->
            exists (s0' : S) (u : unit),
              UtilsIO.os_write api s0' path text
              = (fst (UtilsIO.os_write api s0 path text), Ok u)
              /\ last (before ++ [UtilsIO.OsWrite path text])
                 = Some (UtilsIO.OsWrite path text)) as Hwrite.
  { intros s0 before Hok.
    destruct (UtilsIO.os_write api s0 path text) as [s2 [u | e]] eqn:Hw;
      [| discriminate].
    exists s0, u. split; [exact Hw | apply last_snoc]. }
  rewrite Hcases. clear Hcases.
  destruct (bool_decide (dir = "")) eqn:Hdir;
    [apply bool_decide_eq_true in Hdir | apply bool_decide_eq_false in Hdir].
  - do 3 eexists. split; [reflexivity |]. split.
    + exact (Hwrite s []).
    + intros s1 e Hne. contradiction.
  - destruct (UtilsIO.os_view api s dir) as [ | e0 | text0] eqn:Hview.
    + destruct (UtilsIO.os_makedirs api s dir) as [s1 [u | e]] eqn:Hmk.
      * do 3 eexists. split; [reflexivity |]. split.
        -- exact (Hwrite s1 [UtilsIO.OsExists dir; UtilsIO.OsMakedirs dir]).
        -- intros s1' e _ _ [=].
      * do 3 eexists. split; [reflexivity |]. split.
        -- discriminate.
        -- intros s1' e' _ _ [= <- <-]. auto.
    + do 3 eexists. split; [reflexivity |]. split.
      * exact (Hwrite s [UtilsIO.OsExists dir]).
      * intros s1 e _ [=].
    + do 3 eexists. split; [reflexivity |]. split.
      * exact (Hwrite s [UtilsIO.OsExists dir]).
      * intros s1 e _ [=].
Qed.

Lemma save_json_result_witness :
  exists (s' : string -> file_state) (t : list UtilsIO.os_event) (b : bool),
    UtilsIO.save_json DemoIO.api DemoIO.saved "notes.txt/sub/data.json"
      DemoIO.start = (s', t, Ok b)
    /\ b = false
    /\ t = [UtilsIO.OsExists "notes.txt/sub"; UtilsIO.OsMakedirs "notes.txt/sub"].
Proof.
  destruct (save_json_result DemoIO.api DemoIO.saved "notes.txt/sub/data.json"
              DemoIO.start) as (s1 & t1 & b1 & Hrun & _ & Hfail).
  destruct (Hfail DemoIO.start DemoIO.not_a_directory) as (_ & Hb & Ht);
    [discriminate | reflexivity | reflexivity |].
  exists s1, t1, b1. split; [exact Hrun |]. split; [exact Hb | exact Ht].
Defined.

(** X18.  [save_json] does directory work only when it is needed: for a
    bare file name it goes straight to the write, with no existence test;
    with a parent directory that exists it tests once and creates
    nothing. *)
Theorem save_json_directory_work {S : Type} (api : UtilsIO.os_api S)
    (data : value) (path : string) (s : S) :
  let dir := UtilsIO.os_dirname api path in
  let text := UtilsIO.json_dumps api data in
  (dir = "" ->
   snd (fst (UtilsIO.save_json api data path s))
   = [UtilsIO.OsWrite path text])
  /\ (dir <> "" -> UtilsIO.os_view api s dir <> NoFile ->
      snd (fst (UtilsIO.save_json api data path s))
      = [UtilsIO.OsExists dir; UtilsIO.OsWrite path text]).
Proof.
  intros dir text.
  pose proof (save_json_cases api data path s) as Hcases.
  simpl in Hcases. fold dir in Hcases. fold text in Hcases.
  rewrite Hcases. clear Hcases. split.
  - intros Hdir. rewrite bool_decide_eq_true_2 by exact Hdir. reflexivity.
  - intros Hdir Hview. rewrite bool_decide_eq_false_2 by exact Hdir.
    destruct (UtilsIO.os_view api s dir); [contradiction | ..]; reflexivity.
Qed.

Lemma save_json_directory_work_witness :
  snd (fst (UtilsIO.save_json DemoIO.api DemoIO.saved "data.json"
              DemoIO.start))
  = [UtilsIO.OsWrite "data.json" (DemoIO.dumps DemoIO.saved)].
Proof.
  apply (save_json_directory_work DemoIO.api DemoIO.saved "data.json"
           DemoIO.start).
  reflexivity.
Defined.

(** X19.  Round trip.  If [save_json] answers true, the file system gives
    back what was just written, and the decoder inverts the encoder on
    [data], then [file_automation] on the same path, in the state that
    [save_json] left, succeeds with exactly [data]. *)
Theorem save_then_read {S : Type} (api : UtilsIO.os_api S) (w : world)
    (data : value) (path : string) (s s' : S) (t : list UtilsIO.os_event) :
  UtilsIO.save_json api data path s = (s', t, Ok true) ->
  (forall s0 s1 u,
     UtilsIO.os_write api s0 path (UtilsIO.json_dumps api data) = (s1, Ok u) ->
     UtilsIO.os_view api s1 path = Readable (UtilsIO.json_dumps api data)) ->
  json_loads w (UtilsIO.json_dumps api data) = inr data ->
  outcome (file_automation (UtilsIO.world_at api w s') path)
  = Ok (operation_result true "File successfully processed as JSON" data).
Proof.
  intros Hsave Hlaw Hjson.
  destruct (save_json_result api data path s)
    as (s2 & t2 & b & Hrun & Htrue & _).
  rewrite Hsave in Hrun. injection Hrun as <- <- <-.
  destruct (Htrue eq_refl) as (s0 & u & Hw & _).
  rewrite file_automation_cases. simpl.
  rewrite (Hlaw s0 s' u Hw), Hjson. reflexivity.
Qed.

Lemma save_then_read_witness :
  outcome (file_automation
             (UtilsIO.world_at DemoIO.api DemoIO.w
                (fst (fst (UtilsIO.save_json DemoIO.api DemoIO.saved
                             "out/data.json" DemoIO.start))))
             "out/data.json")
  = Ok (operation_result true "File successfully processed as JSON"
          DemoIO.saved).
Proof.
  apply (save_then_read DemoIO.api DemoIO.w DemoIO.saved "out/data.json"
           DemoIO.start _
           (snd (fst (UtilsIO.save_json DemoIO.api DemoIO.saved
                        "out/data.json" DemoIO.start)))).
  - vm_compute. reflexivity.
  - intros s0 s1 u Hw. simpl in Hw.
    destruct (s0 "out/data.json");
      [| discriminate |];
      change (DemoIO.posix_dirname "out/data.json") with "out" in Hw;
      simpl in Hw; destruct (s0 "out"); try discriminate;
      injection Hw as <- _; reflexivity.
  - vm_compute. reflexivity.
Defined.
